(** * libpurecoollink: the Dyson account session (dyson.py)

    A shallow embedding of [DysonAccount] (construction, token installation,
    the three-step login and the device listing) and the properties of its
    login state machine and of the device classification. *)

From stdpp Require Import base option list strings gmap pretty.
From Stdlib Require Import ZArith Ascii.

Set Warnings "-register-all".

Local Open Scope string_scope.
Local Open Scope list_scope.
Local Open Scope Z_scope.

(** ** Python values

    What [Response.json()] can produce, which is also what the session puts
    into request bodies and log records.  A [JObj] is the parsed dict, its
    items in insertion order (the order [for k in d] follows); [py_getitem]
    reads the first binding of a key.  [JNum] stands for every number: the
    operations below treat an [int] and a [float] alike. *)

Inductive json : Type :=
  | JNull
  | JBool (b : bool)
  | JNum (n : Z)
  | JStr (s : string)
  | JArr (items : list json)
  | JObj (fields : list (string * json)).

(** The exceptions raised inside [dyson.py]. *)
Inductive exn : Type :=
  | KeyError (key : string)
  | TypeError
  | NameError (name : string)
  | JSONDecodeError
  | DysonNotLoggedException.

Fixpoint assoc {V} (k : string) (fields : list (string * V)) : option V :=
  match fields with
  | [] => None
  | (k', v) :: rest => if String.eqb k k' then Some v else assoc k rest
  end.

(** [obj[key]] with a string key: a dict raises [KeyError] when the key is
    absent; lists and strings want integer indices and every other value is
    not subscriptable, both a [TypeError]. *)
Definition py_getitem (obj : json) (key : string) : exn + json :=
  match obj with
  | JObj fields =>
      match assoc key fields with
      | Some v => inr v
      | None => inl (KeyError key)
      end
  | _ => inl TypeError
  end.

Definition is_substring (needle hay : string) : bool :=
  match String.index 0 needle hay with
  | Some _ => true
  | None => false
  end.

Definition is_JStr (s : string) (v : json) : bool :=
  match v with
  | JStr t => String.eqb t s
  | _ => false
  end.

(** [key in obj] with a string key: key membership for a dict, element
    membership for a list, substring test for a string, a [TypeError] for the
    values that are not iterable. *)
Definition py_contains (obj : json) (key : string) : exn + bool :=
  match obj with
  | JObj fields => inr (bool_decide (is_Some (assoc key fields)))
  | JArr items => inr (existsb (is_JStr key) items)
  | JStr s => inr (is_substring key s)
  | _ => inl TypeError
  end.

(** [value != 'literal']: only a string with the same characters is equal. *)
Definition py_ne_str (v : json) (lit : string) : bool := negb (is_JStr lit v).

(** ['literal' + value]: [str] concatenates with [str] only. *)
Definition py_str_add (lit : string) (v : json) : exn + string :=
  match v with
  | JStr s => inr (lit +:+ s)
  | _ => inl TypeError
  end.

(** A [string] holds the UTF-8 bytes of a Python [str]; a byte [10xxxxxx]
    continues the character begun before it. *)
Definition is_continuation (c : ascii) : bool :=
  (128 <=? nat_of_ascii c)%nat && (nat_of_ascii c <? 192)%nat.

(** The continuation bytes [s] starts with, and the characters after them. *)
Fixpoint code_points (s : string) : string * list json :=
  match s with
  | EmptyString => (EmptyString, [])
  | String c rest =>
      let (pending, items) := code_points rest in
      if is_continuation c then (String c pending, items)
      else (EmptyString, JStr (String c pending) :: items)
  end.

(** The characters of a [str], each a [str] of length one, as iterating
    over it gives them. *)
Definition chars (s : string) : list json :=
  match code_points s with
  | (EmptyString, items) => items
  | (stray, items) => JStr stray :: items
  end.

(** What a [for] loop iterates over. *)
Definition py_iter (v : json) : exn + list json :=
  match v with
  | JArr items => inr items
  | JObj fields => inr (map (λ kv, JStr kv.1) fields)
  | JStr s => inr (chars s)
  | _ => inl TypeError
  end.

(** [template.format(args...)] for the templates of this module, whose
    replacement fields are [{0}] to [{9}]; every argument here is a [str].
    (Python raises [IndexError] for a field with no argument; the templates
    below only name arguments they are given.) *)
Fixpoint format (template : string) (args : list string) : string :=
  match template with
  | EmptyString => EmptyString
  | String c rest =>
      match c, rest with
      | "{"%char, String d (String "}"%char rest') =>
          default EmptyString (args !! (nat_of_ascii d - 48)%nat) +:+ format rest' args
      | _, _ => String c (format rest args)
      end
  end.

(** ** The session and its environment *)

Record Response := mkResponse {
  status_code : Z;
  (** the parsed body; [None] when the body is not JSON and [json()] raises *)
  body : option json;
}.

Record DysonAccount := mkDysonAccount {
  _email : string;
  _password : string;
  _country : string;
  _logged : bool;
  _headers : gmap string string;
}.

(** The collaborators of one call: [requests.post], [requests.get] and
    [input].  Each is asked with what the code passes and answers with what
    the code gets back; a different call may meet a different [World].  The
    environment always answers: a request that gets no response at all, or a
    terminal at end of file, raises inside the collaborator before the code
    of this module goes on. *)
Record World := mkWorld {
  requests_post : string → json → gmap string string → Response;
  requests_get : string → gmap string string → Response;
  input : string → string;
}.

Inductive level := DEBUG | INFO | WARNING.

(** What a call does to its environment, in the order it does it. *)
Inductive event : Type :=
  | EvPost (url : string) (request_body : json) (headers : gmap string string)
  | EvGet (url : string) (headers : gmap string string)
  | EvInput (prompt : string)
  | EvLog (lvl : level) (record : json).

(** ** The monad of a method body

    A method reads its environment, mutates [self], emits events and either
    returns or raises; [self] and the events so far survive a raise. *)

Record Result (A : Type) := mkResult {
  outcome : exn + A;
  final : DysonAccount;
  trace : list event;
}.
Arguments mkResult {A} _ _ _.
Arguments outcome {A} _.
Arguments final {A} _.
Arguments trace {A} _.

Definition M (A : Type) : Type := World → DysonAccount → Result A.

Definition ret {A} (a : A) : M A := λ _ self, mkResult (inr a) self [].

Definition raise {A} (e : exn) : M A := λ _ self, mkResult (inl e) self [].

Definition bind {A B} (m : M A) (k : A → M B) : M B := λ w self,
  match m w self with
  | mkResult (inl e) self' tr => mkResult (inl e) self' tr
  | mkResult (inr a) self' tr =>
      match k a w self' with
      | mkResult o self'' tr' => mkResult o self'' (tr ++ tr')
      end
  end.

Declare Scope py_scope.
Delimit Scope py_scope with py.
Notation "x <- m ;; k" := (bind m (λ x, k))
  (at level 100, m at next level, right associativity) : py_scope.
Notation "m ;; k" := (bind m (λ _, k))
  (at level 100, right associativity) : py_scope.
Local Open Scope py_scope.

Definition lift {A} (x : exn + A) : M A :=
  match x with
  | inl e => raise e
  | inr a => ret a
  end.

Definition emit (e : event) : M unit := λ _ self, mkResult (inr tt) self [e].

Definition self_ {A} (proj : DysonAccount → A) : M A := λ _ self,
  mkResult (inr (proj self)) self [].

Definition set_logged (b : bool) : M unit := λ _ self,
  mkResult (inr tt)
    (mkDysonAccount (_email self) (_password self) (_country self) b (_headers self)) [].

Definition set_header (name value : string) : M unit := λ _ self,
  mkResult (inr tt)
    (mkDysonAccount (_email self) (_password self) (_country self) (_logged self)
       (<[name := value]> (_headers self))) [].

Definition log (lvl : level) (record : json) : M unit := emit (EvLog lvl record).

Definition post (url : string) (request_body : json) (headers : gmap string string)
  : M Response := λ w self,
  mkResult (inr (requests_post w url request_body headers)) self
    [EvPost url request_body headers].

Definition get (url : string) (headers : gmap string string) : M Response := λ w self,
  mkResult (inr (requests_get w url headers)) self [EvGet url headers].

Definition read_input (prompt : string) : M string := λ w self,
  mkResult (inr (input w prompt)) self [EvInput prompt].

(** [response.json()] *)
Definition json_of (r : Response) : M json :=
  match body r with
  | Some v => ret v
  | None => raise JSONDecodeError
  end.

(** ** [dyson.py] *)

Definition DYSON_API_URL : string := "appapi.cp.dyson.com".

(** [requests.codes.ok] *)
Definition requests_codes_ok : Z := 200.

(** [DysonAccount.__init__] *)
Definition __init__ (email password country : string) : DysonAccount :=
  {| _email := email;
     _password := password;
     _country := country;
     _logged := false;
     _headers :=
       <["Content-Type" := "application/json"]>
       (<["User-Agent" :=
           "Dalvik/2.1.0 (Linux; U; Android 12; sdk_gphone64_x86_64 Build/S2B2.211203.006)"]>
        ∅) |}.

(** [DysonAccount.use_authentication_token]: the concatenation comes first,
    so a token that is not a [str] raises before [self] changes. *)
Definition use_authentication_token (authentication_token : json) : M unit :=
  value <- lift (py_str_add "Bearer " authentication_token);;
  set_header "Authorization" value;;
  set_logged true.

(** Name resolution inside [login]'s body.  The names bound to a response
    are the local variables in [locals]; the module's globals ([logging],
    [requests], [HTTPBasicAuth], [is_360_eye_device], [is_heating_device],
    the three device classes, [DysonNotLoggedException], [_LOGGER],
    [DYSON_API_URL], [DysonAccount]) and the builtins hold no response, and a
    method name such as [login] is an attribute of the class, not a name in
    scope.  A name that resolves nowhere raises [NameError]. *)
Definition load_name (locals : list (string * Response)) (name : string) : M Response :=
  match assoc name locals with
  | Some r => ret r
  | None => raise (NameError name)
  end.

(** [DysonAccount.login] *)
Definition login : M bool :=
  email <- self_ _email;;
  let request_body := JObj [("email", JStr email)] in
  log INFO (JStr "Step 1 of login flow: check account state");;
  country <- self_ _country;;
  headers <- self_ _headers;;
  authentication_type_response <-
    post (format "https://{0}/v3/userregistration/email/userstatus?country={1}"
            [DYSON_API_URL; country]) request_body headers;;
  if status_code authentication_type_response =? requests_codes_ok then
    log DEBUG (JStr "Got good response for authentication_type request");;
    json_response <- json_of authentication_type_response;;
    log DEBUG json_response;;
    account_status <- lift (py_getitem json_response "accountStatus");;
    if py_ne_str account_status "ACTIVE" then
      account_status <- lift (py_getitem json_response "accountStatus");;
      message <- lift (py_str_add "Account not ACTIVE, not sure how to proceed, but "
                         account_status);;
      log WARNING (JStr message);;
      set_logged false;;
      self_ _logged
    else
    authentication_method <- lift (py_getitem json_response "authenticationMethod");;
    if py_ne_str authentication_method "EMAIL_PWD_2FA" then
      log WARNING (JStr
        "Account is using an unexpected authentication type, don't know how to proceed");;
      set_logged false;;
      self_ _logged
    else
    authentication_type <- lift (py_getitem json_response "authenticationMethod");;
    (* Start authentication process *)
    log INFO (JStr "Step 2 of login flow: get challenge ID");;
    country <- self_ _country;;
    headers <- self_ _headers;;
    challenge_initiate_response <-
      post (format "https://{0}/v3/userregistration/email/auth?country={1}&culture=en-{1}"
              [DYSON_API_URL; country]) request_body headers;;
    if status_code challenge_initiate_response =? requests_codes_ok then
      log DEBUG (JStr "Got good response for challenge initiation");;
      json_response <- json_of challenge_initiate_response;;
      log DEBUG json_response;;
      has_challenge <- lift (py_contains json_response "challengeId");;
      if negb has_challenge then
        log WARNING (JStr "Did not get a challengeId in response; dunno what to do");;
        set_logged false;;
        self_ _logged
      else
      challenge_id <- lift (py_getitem json_response "challengeId");;
      message <- lift (py_str_add "Got challengeId: " challenge_id);;
      log DEBUG (JStr message);;
      (* Complete authentication process *)
      log INFO (JStr "Step 3 of login flow: interactive MFA");;
      email <- self_ _email;;
      otp <- read_input ("Input the code sent to you by Dyson at " +:+ email +:+ ":       ");;
      email <- self_ _email;;
      password <- self_ _password;;
      let request_body :=
        JObj [("email", JStr email); ("password", JStr password);
              ("challengeId", challenge_id); ("otpCode", JStr otp)] in
      country <- self_ _country;;
      headers <- self_ _headers;;
      login_response <-
        post (format "https://{0}/v3/userregistration/email/verify?country={1}"
                [DYSON_API_URL; country]) request_body headers;;
      let locals :=
        [("authentication_type_response", authentication_type_response);
         ("challenge_initiate_response", challenge_initiate_response);
         ("login_response", login_response)] in
      (* the source reads [login.status_code] and [login.json()] here *)
      login_ <- load_name locals "login";;
      (if status_code login_ =? requests_codes_ok then
         login_ <- load_name locals "login";;
         json_response <- json_of login_;;
         log DEBUG json_response;;
         token <- lift (py_getitem json_response "token");;
         use_authentication_token token
       else
         set_logged false);;
      self_ _logged
    else
      log WARNING (JStr ("Got failed response from API with response code: "
                         +:+ pretty (status_code challenge_initiate_response)));;
      set_logged false;;
      self_ _logged
  else
    log WARNING (JStr ("Got failed response from API with response code: "
                       +:+ pretty (status_code authentication_type_response)));;
    set_logged false;;
    self_ _logged.

(** Modelled from the spec: the three device classes ([dyson_360_eye.py],
    [dyson_pure_hotcool_link.py], [dyson_pure_cool_link.py]) are not part of
    this module; each handle is built from the manifest record it is given. *)
Inductive Device : Type :=
  | Dyson360Eye (device : json)
  | DysonPureHotCoolLink (device : json)
  | DysonPureCoolLink (device : json).

Section Listing.

(** The two predicates of [utils.py], supplied by the surrounding package:
    they inspect a record and answer. *)
Variable is_360_eye_device : json → bool.
Variable is_heating_device : json → bool.

(** [DysonAccount.devices]; the [for] loop appends one handle per record to
    the list it started empty. *)
Definition devices : M (list Device) :=
  logged <- self_ _logged;;
  if logged then
    headers <- self_ _headers;;
    device_response <-
      get (format "https://{0}/v1/provisioningservice/manifest" [DYSON_API_URL]) headers;;
    manifest <- json_of device_response;;
    records <- lift (py_iter manifest);;
    ret (fold_left
           (λ devices device,
              let dyson_device :=
                if is_360_eye_device device then Dyson360Eye device
                else if is_heating_device device then DysonPureHotCoolLink device
                else DysonPureCoolLink device in
              devices ++ [dyson_device])
           records [])
  else
    log WARNING (JStr "Not logged to Dyson Web Services.");;
    raise DysonNotLoggedException.

End Listing.

(** [DysonAccount.logged] *)
Definition logged (self : DysonAccount) : bool := _logged self.


(** ** Reading a trace *)

Definition is_request (e : event) : bool :=
  match e with
  | EvPost _ _ _ | EvGet _ _ => true
  | _ => false
  end.

(** The network requests of a trace, POST or GET, oldest first. *)
Definition requests (tr : list event) : list event := List.filter is_request tr.

(** The prompts on the terminal. *)
Definition prompts (tr : list event) : list string :=
  omap (λ e, match e with EvInput p => Some p | _ => None end) tr.

(** ** What the environment answers to the requests of a call *)

Definition userstatus_url (country : string) : string :=
  "https://appapi.cp.dyson.com/v3/userregistration/email/userstatus?country=" +:+ country.

Definition auth_url (country : string) : string :=
  "https://appapi.cp.dyson.com/v3/userregistration/email/auth?country=" +:+ country
  +:+ "&culture=" +:+ ("en-" +:+ country).

Definition verify_url (country : string) : string :=
  "https://appapi.cp.dyson.com/v3/userregistration/email/verify?country=" +:+ country.

Definition manifest_url : string :=
  "https://appapi.cp.dyson.com/v1/provisioningservice/manifest".

Definition email_only (self : DysonAccount) : json := JObj [("email", JStr (_email self))].

Definition step1_response (w : World) (self : DysonAccount) : Response :=
  requests_post w (userstatus_url (_country self)) (email_only self) (_headers self).

Definition step2_response (w : World) (self : DysonAccount) : Response :=
  requests_post w (auth_url (_country self)) (email_only self) (_headers self).

Definition manifest_response (w : World) (self : DysonAccount) : Response :=
  requests_get w manifest_url (_headers self).

(** A step-1 response that lets [login] go on to step 2. *)
Definition step1_passes (w : World) (self : DysonAccount) : Prop :=
  status_code (step1_response w self) = 200 ∧
  ∃ fields, body (step1_response w self) = Some (JObj fields) ∧
    assoc "accountStatus" fields = Some (JStr "ACTIVE") ∧
    assoc "authenticationMethod" fields = Some (JStr "EMAIL_PWD_2FA").

(** A step-2 response that lets [login] go on to the prompt of step 3. *)
Definition step2_passes (w : World) (self : DysonAccount) : Prop :=
  status_code (step2_response w self) = 200 ∧
  ∃ fields challenge_id, body (step2_response w self) = Some (JObj fields) ∧
    assoc "challengeId" fields = Some (JStr challenge_id).

(** [self] after a failed login step: only the flag is reset. *)
Definition logged_out (self : DysonAccount) : DysonAccount :=
  mkDysonAccount (_email self) (_password self) (_country self) false (_headers self).

(** [s.startswith(prefix)] *)
Fixpoint startswith (prefix s : string) : bool :=
  match prefix, s with
  | EmptyString, _ => true
  | String a prefix', String b s' => Ascii.eqb a b && startswith prefix' s'
  | _, _ => false
  end.

(** The headers carry an [Authorization] entry of the form [Bearer <token>]. *)
Definition has_bearer (self : DysonAccount) : bool :=
  match _headers self !! "Authorization" with
  | Some value => startswith "Bearer " value
  | None => false
  end.

(** The sessions a caller can get hold of: a fresh one, and what any call of
    a public method leaves behind, whether the call returned or raised and
    whatever its environment answered. *)
Inductive reachable : DysonAccount → Prop :=
  | reach_init email password country :
      reachable (__init__ email password country)
  | reach_use_authentication_token self token w :
      reachable self → reachable (final (use_authentication_token token w self))
  | reach_login self w :
      reachable self → reachable (final (login w self))
  | reach_devices self is_360_eye_device is_heating_device w :
      reachable self →
      reachable (final (devices is_360_eye_device is_heating_device w self)).

(** The handle the loop of [devices] builds for one record. *)
Definition handle (is_360_eye_device is_heating_device : json → bool) (record : json)
  : Device :=
  if is_360_eye_device record then Dyson360Eye record
  else if is_heating_device record then DysonPureHotCoolLink record
  else DysonPureCoolLink record.

(** ** Sample environments *)

(** An environment that answers the three login requests, the prompt and the
    manifest request with fixed values. *)
Definition scripted (r1 r2 r3 : Response) (otp : string) (manifest : Response) : World :=
  {| requests_post url _ _ :=
       if is_substring "/userstatus?" url then r1
       else if is_substring "/auth?" url then r2
       else r3;
     requests_get _ _ := manifest;
     input _ := otp |}.

Definition ok (fields : list (string * json)) : Response :=
  mkResponse 200 (Some (JObj fields)).

Definition active_2fa : Response :=
  ok [("accountStatus", JStr "ACTIVE"); ("authenticationMethod", JStr "EMAIL_PWD_2FA")].

Definition challenge : Response :=
  ok [("challengeId", JStr "e6ff5f3f-204c-4c76-8546-7a536761ebdd")].

Definition token_granted : Response := ok [("token", JStr "t0k3n")].

Definition rejected : Response :=
  mkResponse 401 (Some (JObj [("Message", JStr "Unable to authenticate user.")])).

Definition unavailable : Response := mkResponse 503 None.

Definition alice : DysonAccount := __init__ "alice@example.com" "hunter2" "US".

(** Attribute-presence predicates to run [devices] with. *)
Definition has_marker (key : string) (record : json) : bool :=
  match py_contains record key with
  | inr b => b
  | inl _ => false
  end.

Definition vacuum : json := JObj [("Serial", JStr "V1"); ("eye", JBool true)].
Definition heater : json := JObj [("Serial", JStr "H1"); ("heat", JBool true)].
Definition fan : json := JObj [("Serial", JStr "F1")].
Definition hybrid : json :=
  JObj [("Serial", JStr "X1"); ("heat", JBool true); ("eye", JBool true)].

Definition with_manifest (records : list json) : World :=
  scripted unavailable unavailable unavailable "" (mkResponse 200 (Some (JArr records))).

(** [alice] with a token installed by hand. *)
Definition alice_with_token : DysonAccount :=
  final (use_authentication_token (JStr "t0k3n") (with_manifest []) alice).

(** ** More ways to read a call *)

(** What a call exchanges with the outside, log records left out: its
    requests and its prompts, oldest first. *)
Definition interactions (tr : list event) : list event :=
  List.filter (λ e, match e with EvLog _ _ => false | _ => true end) tr.

(** The prompt of step 3. *)
Definition otp_prompt (self : DysonAccount) : string :=
  "Input the code sent to you by Dyson at " +:+ _email self +:+ ":       ".

(** The body of the verify request. *)
Definition verify_body (self : DysonAccount) (challenge_id : json) (otp : string) : json :=
  JObj [("email", JStr (_email self)); ("password", JStr (_password self));
        ("challengeId", challenge_id); ("otpCode", JStr otp)].

(** The four exchanges of a login that goes all the way. *)
Definition login_script (w : World) (self : DysonAccount) (challenge_id : json)
  : list event :=
  [EvPost (userstatus_url (_country self)) (email_only self) (_headers self);
   EvPost (auth_url (_country self)) (email_only self) (_headers self);
   EvInput (otp_prompt self);
   EvPost (verify_url (_country self))
     (verify_body self challenge_id (input w (otp_prompt self))) (_headers self)].

(** [self] with its flag set to [b]. *)
Definition with_flag (b : bool) (self : DysonAccount) : DysonAccount :=
  mkDysonAccount (_email self) (_password self) (_country self) b (_headers self).

(** The manifest record a handle was built from. *)
Definition record_of (d : Device) : json :=
  match d with
  | Dyson360Eye record | DysonPureHotCoolLink record | DysonPureCoolLink record => record
  end.

Definition is_str (v : json) : bool :=
  match v with
  | JStr _ => true
  | _ => false
  end.

(** ** Strings and values: facts *)

Lemma append_empty_r (s : string) : s +:+ "" = s.
Proof.
  induction s as [|c s IH]; [done|].
  change (String c (s +:+ "") = String c s). by rewrite IH.
Qed.

Lemma format_userstatus country :
  format "https://{0}/v3/userregistration/email/userstatus?country={1}"
    [DYSON_API_URL; country] = userstatus_url country.
Proof. vm_compute. by rewrite append_empty_r. Qed.

Lemma format_auth country :
  format "https://{0}/v3/userregistration/email/auth?country={1}&culture=en-{1}"
    [DYSON_API_URL; country] = auth_url country.
Proof. vm_compute. by rewrite append_empty_r. Qed.

Lemma format_verify country :
  format "https://{0}/v3/userregistration/email/verify?country={1}"
    [DYSON_API_URL; country] = verify_url country.
Proof. vm_compute. by rewrite append_empty_r. Qed.

Lemma format_manifest :
  format "https://{0}/v1/provisioningservice/manifest" [DYSON_API_URL] = manifest_url.
Proof. reflexivity. Qed.

(** Iterating over a [str] gives its characters, not its bytes. *)
Example chars_code_points :
  chars "héllo" = [JStr "h"; JStr "é"; JStr "l"; JStr "l"; JStr "o"].
Proof. reflexivity. Qed.

Lemma py_ne_str_true v lit : py_ne_str v lit = true ↔ v ≠ JStr lit.
Proof.
  unfold py_ne_str. destruct v as [| | |s| |]; cbn; try (split; [congruence | done]).
  destruct (String.eqb_spec s lit) as [->|Hne]; cbn.
  - split; [done | congruence].
  - split; [congruence | done].
Qed.

Lemma py_ne_str_false v lit : py_ne_str v lit = false → v = JStr lit.
Proof.
  unfold py_ne_str. destruct v as [| | |s| |]; cbn; try discriminate.
  destruct (String.eqb_spec s lit) as [->|]; [done | discriminate].
Qed.

Lemma py_getitem_inr j key v :
  py_getitem j key = inr v → ∃ fields, j = JObj fields ∧ assoc key fields = Some v.
Proof.
  destruct j as [| | | | |fields]; cbn; try discriminate.
  destruct (assoc key fields) as [v'|] eqn:E; [|discriminate].
  intros [= ->]. eauto.
Qed.

Lemma status_ok r : status_code r = 200 → (status_code r =? requests_codes_ok) = true.
Proof. intros H. by apply Z.eqb_eq. Qed.

Lemma status_not_ok r : status_code r ≠ 200 → (status_code r =? requests_codes_ok) = false.
Proof. intros H. by apply Z.eqb_neq. Qed.

Lemma fold_append_map {A B} (f : A → B) (l : list A) (acc : list B) :
  fold_left (λ acc x, acc ++ [f x]) l acc = acc ++ (f <$> l).
Proof.
  revert acc. induction l as [|x l IH]; intros acc; cbn.
  - by rewrite app_nil_r.
  - rewrite IH. by rewrite <- app_assoc.
Qed.

(** ** Symbolic execution of a method body *)

Ltac run_simpl :=
  cbn -[format pretty];
  rewrite ?format_userstatus, ?format_auth, ?format_verify, ?format_manifest.

Ltac run_head :=
  unfold login, devices, use_authentication_token, bind, self_, log, emit, post, get,
    read_input, set_logged, set_header, json_of, lift, load_name, ret, raise;
  run_simpl.

(** Split on the next thing the environment decides. *)
Ltac run_case :=
  match goal with
  | |- context [ ?x =? requests_codes_ok ] => destruct (x =? requests_codes_ok) eqn:?
  | |- context [ match body ?r with _ => _ end ] => destruct (body r) eqn:?
  | |- context [ match py_getitem ?j ?k with _ => _ end ] =>
      destruct (py_getitem j k) eqn:?
  | |- context [ match py_contains ?j ?k with _ => _ end ] =>
      destruct (py_contains j k) eqn:?
  | |- context [ match py_str_add ?s ?v with _ => _ end ] =>
      destruct (py_str_add s v) eqn:?
  | |- context [ match py_iter ?v with _ => _ end ] => destruct (py_iter v) eqn:?
  | |- context [ if py_ne_str ?v ?s then _ else _ ] => destruct (py_ne_str v s) eqn:?
  | |- context [ if negb ?b then _ else _ ] => destruct b eqn:?
  | |- context [ if _logged ?s then _ else _ ] => destruct (_logged s) eqn:?
  end; run_simpl.

Ltac run := run_head; repeat run_case.

(** Follow the path on which step 1 passes. *)
Ltac pass_step1 S1 B1 A1 M1 :=
  rewrite S1, B1; run_simpl; rewrite A1; run_simpl; rewrite M1; run_simpl.

(** ** [login]: general facts *)

(** Whatever the environment answers, [login] leaves the identity and the
    headers alone: the session is unchanged or only its flag is reset. *)
Lemma login_final w self :
  final (login w self) = self ∨ final (login w self) = logged_out self.
Proof. run; auto. Qed.

(** [login] never returns [True]: the only path that could ends in the
    unbound name. *)
Lemma login_never_true w self : outcome (login w self) ≠ inr true.
Proof. run; discriminate. Qed.

(** Whatever [login] returns is the flag it leaves behind. *)
Lemma login_returns_flag w self b :
  outcome (login w self) = inr b → _logged (final (login w self)) = b.
Proof. run; congruence. Qed.

(** Step 1 answered with a status other than 200. *)
Lemma login_step1_status w self :
  status_code (step1_response w self) ≠ 200 →
  outcome (login w self) = inr false ∧
  final (login w self) = logged_out self ∧
  requests (trace (login w self)) =
    [EvPost (userstatus_url (_country self)) (email_only self) (_headers self)] ∧
  prompts (trace (login w self)) = [].
Proof.
  intros H%status_not_ok. unfold step1_response, email_only in *.
  run_head. rewrite H. by run_simpl.
Qed.

(** Step 2 answered with a status other than 200. *)
Lemma login_step2_status w self :
  step1_passes w self →
  status_code (step2_response w self) ≠ 200 →
  outcome (login w self) = inr false ∧
  final (login w self) = logged_out self ∧
  prompts (trace (login w self)) = [].
Proof.
  intros (S1%status_ok & f1 & B1 & A1 & M1) S2%status_not_ok.
  unfold step1_response, step2_response, email_only in *.
  run_head. pass_step1 S1 B1 A1 M1. rewrite S2. by run_simpl.
Qed.

(** Step 2 answered 200 with an object that has no [challengeId]. *)
Lemma login_step2_no_challenge w self fields :
  step1_passes w self →
  status_code (step2_response w self) = 200 →
  body (step2_response w self) = Some (JObj fields) →
  assoc "challengeId" fields = None →
  outcome (login w self) = inr false ∧
  final (login w self) = logged_out self ∧
  prompts (trace (login w self)) = [].
Proof.
  intros (S1%status_ok & f1 & B1 & A1 & M1) S2%status_ok B2 C2.
  unfold step1_response, step2_response, email_only in *.
  run_head. pass_step1 S1 B1 A1 M1. rewrite S2, B2. run_simpl. rewrite C2. by run_simpl.
Qed.

(** Once steps 1 and 2 pass, the prompt is shown, the verify request is sent
    and, whatever it answers, reading [login.status_code] raises. *)
Lemma login_verify_raises w self :
  step1_passes w self → step2_passes w self →
  outcome (login w self) = inl (NameError "login") ∧
  final (login w self) = self ∧
  length (requests (trace (login w self))) = 3%nat ∧
  length (prompts (trace (login w self))) = 1%nat.
Proof.
  intros (S1%status_ok & f1 & B1 & A1 & M1) (S2%status_ok & f2 & cid & B2 & C2).
  unfold step1_response, step2_response, email_only in *.
  run_head. pass_step1 S1 B1 A1 M1. rewrite S2, B2. run_simpl. rewrite C2. by run_simpl.
Qed.

(** Whatever the outcome, [login] prompts or sends a second request only
    when step 1 passed: any other step-1 answer, also one that makes [login]
    raise, ends the call with the status request alone. *)
Lemma login_beyond_step1 w self :
  prompts (trace (login w self)) ≠ [] ∨
  length (requests (trace (login w self))) ≠ 1%nat →
  step1_passes w self.
Proof.
  unfold step1_passes, step1_response, email_only.
  run; intros [Hmore | Hmore]; try done.
  all: repeat match goal with
       | H : py_ne_str _ _ = false |- _ => apply py_ne_str_false in H; subst
       | H : (_ =? requests_codes_ok) = true |- _ => apply Z.eqb_eq in H
       end.
  all: match goal with
       | H : py_getitem _ "accountStatus" = inr _ |- _ =>
           apply py_getitem_inr in H as (fields & -> & ?)
       end.
  all: match goal with
       | H : py_getitem _ "authenticationMethod" = inr _ |- _ =>
           apply py_getitem_inr in H as (fields' & [= <-] & ?)
       end.
  all: split; [done | eauto].
Qed.

(** ** [use_authentication_token] and [devices]: general facts *)

Lemma use_authentication_token_final token w self :
  final (use_authentication_token token w self) = self ∨
  (_logged (final (use_authentication_token token w self)) = true ∧
   has_bearer (final (use_authentication_token token w self)) = true).
Proof.
  run_head. destruct token; run_simpl; auto.
  right. split; [done|]. unfold has_bearer. cbn. rewrite lookup_insert_eq. by vm_compute.
Qed.

Lemma use_authentication_token_installs token w self :
  use_authentication_token (JStr token) w self =
    mkResult (inr tt)
      (mkDysonAccount (_email self) (_password self) (_country self) true
         (<["Authorization" := "Bearer " +:+ token]> (_headers self))) [].
Proof. by run_head. Qed.

Lemma devices_listing p360 pheat w self records :
  _logged self = true →
  body (manifest_response w self) = Some (JArr records) →
  devices p360 pheat w self =
    mkResult (inr (handle p360 pheat <$> records)) self
      [EvGet manifest_url (_headers self)].
Proof.
  intros L B. unfold manifest_response in B.
  run_head. rewrite L. run_simpl. rewrite B. run_simpl.
  by rewrite (fold_append_map (handle p360 pheat)).
Qed.

Lemma devices_final p360 pheat w self : final (devices p360 pheat w self) = self.
Proof. run; done. Qed.

(** ** The login protocol *)

(** C1 (the code departs from it at step 3).  A status other than 200 at
    step 1 or step 2 makes [login] return [False] ([login_step1_status],
    [login_step2_status]).  At step 3 it does not: with steps 1 and 2
    answered as expected and the verify request answered 401, all three
    requests are sent and [login] raises [NameError] for the name [login]
    instead of returning [False]. *)
Theorem login_rejected_verification_raises :
  let r := login (scripted active_2fa challenge rejected "123456" unavailable) alice in
  status_code rejected ≠ 200 ∧
  outcome r = inl (NameError "login") ∧
  _logged (final r) = false ∧
  length (requests (trace r)) = 3%nat.
Proof. cbn zeta. split; [done|]. by vm_compute. Qed.

(** C2 (the code departs from it).  With the three steps answered 200 and
    carrying ACTIVE, EMAIL_PWD_2FA, a challengeId string and a token,
    [login] does not return [True]: it raises [NameError] after the verify
    request, the flag stays false and no [Authorization] entry is
    installed. *)
Theorem login_granted_token_raises :
  let r := login (scripted active_2fa challenge token_granted "123456" unavailable) alice in
  outcome r = inl (NameError "login") ∧
  _logged (final r) = false ∧
  _headers (final r) !! "Authorization" = None.
Proof. cbn zeta. by vm_compute. Qed.

(** C3 (the code departs from it at steps 1 and 3).  A 200 response without
    [challengeId] at step 2 makes [login] return [False]
    ([login_step2_no_challenge]).  A 200 response without [accountStatus] or
    without [authenticationMethod] at step 1 raises [KeyError], and a 200
    response without [token] at step 3 raises [NameError]. *)
Theorem login_missing_field_raises :
  outcome (login (scripted (ok [("authenticationMethod", JStr "EMAIL_PWD_2FA")])
                    challenge token_granted "123456" unavailable) alice)
    = inl (KeyError "accountStatus") ∧
  outcome (login (scripted (ok [("accountStatus", JStr "ACTIVE")])
                    challenge token_granted "123456" unavailable) alice)
    = inl (KeyError "authenticationMethod") ∧
  outcome (login (scripted active_2fa challenge (ok []) "123456" unavailable) alice)
    = inl (NameError "login").
Proof. by vm_compute. Qed.

(** C4 (the code departs from it).  A 200 step-1 response whose
    [accountStatus] is a JSON null, or which has no [accountStatus] and reports
    the [authenticationMethod] ["EMAIL_PWD"], does stop [login] before the
    prompt and before any further request, but not by returning [False]:
    [login] raises [TypeError] in the first case, while it builds the warning,
    and [KeyError] in the second. *)
Theorem login_unexpected_status_raises :
  let w_null := scripted (ok [("accountStatus", JNull);
                              ("authenticationMethod", JStr "EMAIL_PWD_2FA")])
                  challenge token_granted "123456" unavailable in
  let w_absent := scripted (ok [("authenticationMethod", JStr "EMAIL_PWD")])
                    challenge token_granted "123456" unavailable in
  (outcome (login w_null alice) = inl TypeError ∧
   prompts (trace (login w_null alice)) = [] ∧
   length (requests (trace (login w_null alice))) = 1%nat) ∧
  (outcome (login w_absent alice) = inl (KeyError "accountStatus") ∧
   prompts (trace (login w_absent alice)) = [] ∧
   length (requests (trace (login w_absent alice))) = 1%nat).
Proof. cbn zeta. by vm_compute. Qed.

(** X25.  When the step-1 response has status 200 and reports an
    [accountStatus] string other than ["ACTIVE"], or an [accountStatus] string
    and an [authenticationMethod] other than ["EMAIL_PWD_2FA"], [login]
    returns [False] with the flag false, the status request is the only
    request it sent and nothing was prompted. *)
Theorem login_aborts_before_prompt w self fields status :
  status_code (step1_response w self) = 200 →
  body (step1_response w self) = Some (JObj fields) →
  assoc "accountStatus" fields = Some (JStr status) →
  (status ≠ "ACTIVE" ∨
   ∃ method, assoc "authenticationMethod" fields = Some method ∧
             method ≠ JStr "EMAIL_PWD_2FA") →
  outcome (login w self) = inr false ∧
  _logged (final (login w self)) = false ∧
  requests (trace (login w self)) =
    [EvPost (userstatus_url (_country self)) (email_only self) (_headers self)] ∧
  prompts (trace (login w self)) = [].
Proof.
  intros S1%status_ok B1 A1 Hbad.
  unfold step1_response, email_only in *.
  run_head. rewrite S1, B1. run_simpl. rewrite A1. run_simpl.
  destruct (py_ne_str (JStr status) "ACTIVE") eqn:Hactive; run_simpl; [done|].
  destruct Hbad as [Hstatus | (method & M1 & Hmethod)].
  - assert (py_ne_str (JStr status) "ACTIVE" = true) as Hne
      by (apply py_ne_str_true; congruence).
    congruence.
  - rewrite M1. run_simpl.
    apply py_ne_str_true in Hmethod. rewrite Hmethod. by run_simpl.
Qed.

Lemma login_aborts_before_prompt_witness :
  let w := scripted (ok [("accountStatus", JStr "ACTIVE");
                         ("authenticationMethod", JStr "EMAIL_PWD")])
             challenge token_granted "123456" unavailable in
  outcome (login w alice) = inr false ∧
  _logged (final (login w alice)) = false ∧
  requests (trace (login w alice)) =
    [EvPost (userstatus_url "US") (email_only alice) (_headers alice)] ∧
  prompts (trace (login w alice)) = [].
Proof.
  intros w.
  apply (login_aborts_before_prompt w alice
           [("accountStatus", JStr "ACTIVE"); ("authenticationMethod", JStr "EMAIL_PWD")]
           "ACTIVE").
  - reflexivity.
  - reflexivity.
  - reflexivity.
  - right. exists (JStr "EMAIL_PWD"). split; [reflexivity | discriminate].
Defined.

(** C8.  When step 1 passes, [login] sends a second request, and a second
    request of [login] is always this one: a POST to
    [/v3/userregistration/email/auth] with the country code as the [country]
    parameter and ["en-"] followed by the same code as the [culture]
    parameter, whose body holds the [email] field and nothing else, sent only
    after step 1 has passed. *)
Theorem challenge_request_shape w self :
  let challenge_request :=
    EvPost
      ("https://appapi.cp.dyson.com/v3/userregistration/email/auth?country="
       +:+ _country self +:+ "&culture=" +:+ ("en-" +:+ _country self))
      (JObj [("email", JStr (_email self))])
      (_headers self) in
  (step1_passes w self →
   requests (trace (login w self)) !! 1%nat = Some challenge_request) ∧
  (∀ ev, requests (trace (login w self)) !! 1%nat = Some ev →
         ev = challenge_request ∧ step1_passes w self).
Proof.
  cbn zeta. split.
  - intros (S1%status_ok & f1 & B1 & A1 & M1).
    unfold step1_response, email_only in *.
    run_head. pass_step1 S1 B1 A1 M1. repeat run_case; done.
  - intros ev Hsecond. split.
    + revert Hsecond. run; intros [=]; done.
    + apply login_beyond_step1. right. intros Hone.
      destruct (requests (trace (login w self))) as [|? [|? ?]]; discriminate.
Qed.

Lemma challenge_request_shape_witness :
  let w := scripted active_2fa unavailable unavailable "" unavailable in
  let ev :=
    EvPost "https://appapi.cp.dyson.com/v3/userregistration/email/auth?country=US&culture=en-US"
      (JObj [("email", JStr "alice@example.com")]) (_headers alice) in
  requests (trace (login w alice)) !! 1%nat = Some ev.
Proof.
  intros w ev.
  apply (proj1 (challenge_request_shape w alice)).
  split; [reflexivity|]. eexists. split; [reflexivity|]. split; reflexivity.
Defined.

(** ** Device listing *)

(** C5.  With the flag false, [devices] raises [DysonNotLoggedException]; it
    sends no request and returns no list. *)
Theorem devices_not_logged p360 pheat w self :
  _logged self = false →
  outcome (devices p360 pheat w self) = inl DysonNotLoggedException ∧
  requests (trace (devices p360 pheat w self)) = [] ∧
  ∀ handles, outcome (devices p360 pheat w self) ≠ inr handles.
Proof. intros L. run_head. rewrite L. by run_simpl. Qed.

Lemma devices_not_logged_witness :
  let r := devices (has_marker "eye") (has_marker "heat") (with_manifest [fan]) alice in
  outcome r = inl DysonNotLoggedException ∧
  requests (trace r) = [] ∧
  ∀ handles, outcome r ≠ inr handles.
Proof.
  apply (devices_not_logged (has_marker "eye") (has_marker "heat")
           (with_manifest [fan]) alice).
  reflexivity.
Defined.

(** C6.  With the flag true and a manifest that is an array of records,
    [devices] returns one handle per record, in the order of the manifest: the
    vacuum handle when the vacuum predicate holds, else the heating handle
    when the heating predicate holds, else the generic cool-link handle.  A
    record satisfying both predicates gets the vacuum handle. *)
Theorem devices_classifies p360 pheat w self records :
  _logged self = true →
  body (manifest_response w self) = Some (JArr records) →
  ∃ handles,
    outcome (devices p360 pheat w self) = inr handles ∧
    length handles = length records ∧
    (∀ (i : nat) record, records !! i = Some record →
       handles !! i =
         Some (if p360 record then Dyson360Eye record
               else if pheat record then DysonPureHotCoolLink record
               else DysonPureCoolLink record)) ∧
    (∀ (i : nat) record, records !! i = Some record →
       p360 record = true → pheat record = true →
       handles !! i = Some (Dyson360Eye record)).
Proof.
  intros L B. rewrite (devices_listing _ _ _ _ _ L B). cbn.
  eexists. split; [done|]. split; [by rewrite length_fmap|]. split.
  - intros i record Hi. by rewrite list_lookup_fmap, Hi.
  - intros i record Hi H360 _. rewrite list_lookup_fmap, Hi. cbn.
    unfold handle. by rewrite H360.
Qed.

Lemma devices_classifies_witness :
  let r := devices (has_marker "eye") (has_marker "heat")
             (with_manifest [vacuum; heater; fan; hybrid]) alice_with_token in
  ∃ handles,
    outcome r = inr handles ∧
    length handles = 4%nat ∧
    handles !! 0%nat = Some (Dyson360Eye vacuum) ∧
    handles !! 1%nat = Some (DysonPureHotCoolLink heater) ∧
    handles !! 2%nat = Some (DysonPureCoolLink fan) ∧
    handles !! 3%nat = Some (Dyson360Eye hybrid).
Proof.
  intros r.
  destruct (devices_classifies (has_marker "eye") (has_marker "heat")
              (with_manifest [vacuum; heater; fan; hybrid]) alice_with_token
              [vacuum; heater; fan; hybrid] eq_refl eq_refl)
    as (handles & Ho & Hl & Hi & Hboth).
  exists handles. split; [exact Ho|]. split; [exact Hl|].
  split; [exact (Hi 0%nat vacuum eq_refl)|].
  split; [exact (Hi 1%nat heater eq_refl)|].
  split; [exact (Hi 2%nat fan eq_refl)|].
  exact (Hboth 3%nat hybrid eq_refl eq_refl eq_refl).
Defined.

(** The three-record manifest of the specification, run. *)
Example devices_three_records :
  outcome (devices (has_marker "eye") (has_marker "heat")
             (with_manifest [vacuum; heater; fan]) alice_with_token)
  = inr [Dyson360Eye vacuum; DysonPureHotCoolLink heater; DysonPureCoolLink fan].
Proof. by vm_compute. Qed.

(** C9.  With the flag true and a manifest that is an array of records,
    [devices] returns a list as long as the array; for the empty array it
    returns the empty list. *)
Theorem devices_length p360 pheat w self records :
  _logged self = true →
  body (manifest_response w self) = Some (JArr records) →
  ∃ handles,
    outcome (devices p360 pheat w self) = inr handles ∧
    length handles = length records ∧
    (records = [] → handles = []).
Proof.
  intros L B. rewrite (devices_listing _ _ _ _ _ L B). cbn.
  eexists. split; [done|]. split; [by rewrite length_fmap|]. by intros ->.
Qed.

Lemma devices_length_witness :
  ∃ handles,
    outcome (devices (has_marker "eye") (has_marker "heat") (with_manifest [])
               alice_with_token) = inr handles ∧
    length handles = 0%nat ∧
    handles = [].
Proof.
  destruct (devices_length (has_marker "eye") (has_marker "heat") (with_manifest [])
              alice_with_token [] eq_refl eq_refl) as (handles & Ho & Hl & Hnil).
  exists handles. split; [exact Ho|]. split; [exact Hl|]. exact (Hnil eq_refl).
Defined.

(** C10.  [devices] leaves the session as it found it, whether it returns a
    list or raises: email, password, country, flag and headers are those it
    was called with. *)
Theorem devices_frame p360 pheat w self :
  let self' := final (devices p360 pheat w self) in
  _email self' = _email self ∧
  _password self' = _password self ∧
  _country self' = _country self ∧
  _logged self' = _logged self ∧
  _headers self' = _headers self.
Proof. cbn zeta. by rewrite devices_final. Qed.

(** ** The flag and the bearer token *)

(** C7, as the code has it.  In every reachable session with the flag true
    the headers carry an [Authorization] entry of the form [Bearer <token>].
    (The converse does not hold: a failed [login] resets the flag and leaves
    the entry where it is.) *)
Theorem logged_has_bearer self :
  reachable self → _logged self = true → has_bearer self = true.
Proof.
  induction 1 as [e p c | self token w _ IH | self w _ IH | self p360 pheat w _ IH].
  - done.
  - destruct (use_authentication_token_final token w self) as [-> | [_ ?]]; auto.
  - destruct (login_final w self) as [-> | ->]; done.
  - by rewrite devices_final.
Qed.

Lemma logged_has_bearer_witness :
  reachable alice_with_token ∧
  _logged alice_with_token = true ∧
  has_bearer alice_with_token = true.
Proof.
  assert (reachable alice_with_token) as R
    by (apply reach_use_authentication_token, reach_init).
  split; [exact R|]. split; [reflexivity|].
  exact (logged_has_bearer alice_with_token R eq_refl).
Defined.

(** C7 as stated fails: after a token is installed, a [login] whose status
    request is answered 503 leaves a session with the flag false and the
    [Authorization] entry still in the headers. *)
Lemma stale_bearer_after_failed_login :
  ¬ (∀ self, reachable self → (_logged self = true ↔ has_bearer self = true)).
Proof.
  intros Hiff.
  set (w := scripted unavailable unavailable unavailable "" unavailable).
  assert (reachable (final (login w alice_with_token))) as R
    by (apply reach_login, reach_use_authentication_token, reach_init).
  apply Hiff in R. destruct R as [_ Hback].
  assert (_logged (final (login w alice_with_token)) = true) as Hlogged
    by (apply Hback; vm_compute; reflexivity).
  vm_compute in Hlogged. discriminate.
Qed.

(** ** Further properties of [login] *)

(** X1.  [login] ends in one of two ways: it returns [False], having reset
    the flag and changed nothing else, or it raises and leaves the session
    exactly as it found it (the flag is not reset then).  It never returns
    [True]. *)
Theorem login_outcomes w self :
  (outcome (login w self) = inr false ∧ final (login w self) = logged_out self) ∨
  (∃ e, outcome (login w self) = inl e ∧ final (login w self) = self).
Proof. run; eauto. Qed.

(** X2.  What [login] returns or raises, and everything it sends, prompts
    and logs, is the same whether the session was flagged logged in or not
    when it was called. *)
Theorem login_ignores_flag w self b :
  outcome (login w (with_flag b self)) = outcome (login w self) ∧
  trace (login w (with_flag b self)) = trace (login w self).
Proof. unfold with_flag. run; done. Qed.

(** X3.  Calling [login] again in the same environment redoes the whole
    flow: same requests and prompt, same outcome, same session afterwards. *)
Theorem login_repeat w self : login w (final (login w self)) = login w self.
Proof.
  assert (∀ s, (outcome (login w s) = inr false ∧ final (login w s) = logged_out s) ∨
               (∃ e, outcome (login w s) = inl e ∧ final (login w s) = s)) as Hcases
    by (intros s; run; eauto).
  assert (outcome (login w (logged_out self)) = outcome (login w self) ∧
          trace (login w (logged_out self)) = trace (login w self)) as [Ho Ht]
    by (unfold logged_out; run; done).
  destruct (Hcases self) as [[Hout Hfin] | (e & Hout & Hfin)].
  - rewrite Hfin.
    destruct (Hcases (logged_out self)) as [[_ Hfin'] | (e & Hout' & _)]; [|congruence].
    change (logged_out (logged_out self)) with (logged_out self) in Hfin'.
    destruct (login w (logged_out self)), (login w self); cbn in *; congruence.
  - by rewrite Hfin.
Qed.

(** X4.  Every call of [login] sends the status request first: a POST to
    [/v3/userregistration/email/userstatus?country=<country>] whose body holds
    the email and nothing else (no password), with the session's headers. *)
Theorem login_first_request w self :
  requests (trace (login w self)) !! 0%nat =
    Some (EvPost
            ("https://appapi.cp.dyson.com/v3/userregistration/email/userstatus?country="
             +:+ _country self)
            (JObj [("email", JStr (_email self))])
            (_headers self)).
Proof. run; done. Qed.

(** X5.  The exchanges of a [login] call are an initial part of: status
    request, challenge request, prompt, verify request.  So a call prompts at
    most once, only after the two first requests, and sends the password and
    the typed code only in the verify request, after the prompt. *)
Theorem login_script_prefix w self :
  ∃ challenge_id,
    interactions (trace (login w self)) `prefix_of` login_script w self challenge_id.
Proof.
  unfold login_script, otp_prompt, verify_body, email_only.
  run; first [ by (exists JNull; eexists) | by (eexists; eexists) ].
Qed.

(** X6.  Every request [login] sends is a POST under
    [https://appapi.cp.dyson.com/v3/userregistration/email/] carrying the
    headers the session had when [login] was called. *)
Theorem login_requests_stay_home w self (i : nat) ev :
  requests (trace (login w self)) !! i = Some ev →
  ∃ url request_body,
    ev = EvPost url request_body (_headers self) ∧
    startswith "https://appapi.cp.dyson.com/v3/userregistration/email/" url = true.
Proof.
  run; intros H.
  all: repeat (destruct i as [|i]; cbn in H;
               [injection H as <-; eexists _, _; split; [reflexivity | by vm_compute] |]).
  all: done.
Qed.

Lemma login_requests_stay_home_witness :
  ∃ url request_body,
    EvPost (auth_url "US") (email_only alice) (_headers alice) =
      EvPost url request_body (_headers alice) ∧
    startswith "https://appapi.cp.dyson.com/v3/userregistration/email/" url = true.
Proof.
  apply (login_requests_stay_home
           (scripted active_2fa unavailable unavailable "" unavailable) alice 1%nat).
  reflexivity.
Defined.

(** X7.  A status other than 200 at step 1, or at step 2 once step 1 has
    passed, makes [login] return [False] with the flag reset, the rest of the
    session kept, and nothing prompted. *)
Theorem login_status_failure w self :
  status_code (step1_response w self) ≠ 200 ∨
  (step1_passes w self ∧ status_code (step2_response w self) ≠ 200) →
  outcome (login w self) = inr false ∧
  final (login w self) = logged_out self ∧
  prompts (trace (login w self)) = [].
Proof.
  intros [H1 | [H1 H2]].
  - destruct (login_step1_status w self H1) as (? & ? & _ & ?). done.
  - exact (login_step2_status w self H1 H2).
Qed.

Lemma login_status_failure_witness :
  let w := scripted active_2fa unavailable token_granted "123456" unavailable in
  outcome (login w alice_with_token) = inr false ∧
  final (login w alice_with_token) = logged_out alice_with_token ∧
  prompts (trace (login w alice_with_token)) = [].
Proof.
  intros w. apply (login_status_failure w alice_with_token).
  right. split.
  - split; [reflexivity|]. eexists. split; [reflexivity|]. split; reflexivity.
  - vm_compute. discriminate.
Defined.

(** X8.  When step 1 has passed and step 2 answers 200 with a JSON object
    that has no [challengeId], [login] returns [False] with the flag reset;
    it has sent the two first requests and nothing else, and has not
    prompted. *)
Theorem login_missing_challenge w self fields :
  step1_passes w self →
  status_code (step2_response w self) = 200 →
  body (step2_response w self) = Some (JObj fields) →
  assoc "challengeId" fields = None →
  outcome (login w self) = inr false ∧
  final (login w self) = logged_out self ∧
  interactions (trace (login w self)) =
    [EvPost (userstatus_url (_country self)) (email_only self) (_headers self);
     EvPost (auth_url (_country self)) (email_only self) (_headers self)].
Proof.
  intros (S1%status_ok & f1 & B1 & A1 & M1) S2%status_ok B2 C2.
  unfold step1_response, step2_response, email_only in *.
  run_head. pass_step1 S1 B1 A1 M1. rewrite S2, B2. run_simpl. rewrite C2. by run_simpl.
Qed.

Lemma login_missing_challenge_witness :
  let w := scripted active_2fa (ok [("Message", JStr "try later")]) token_granted
             "123456" unavailable in
  outcome (login w alice) = inr false ∧
  final (login w alice) = logged_out alice ∧
  interactions (trace (login w alice)) =
    [EvPost (userstatus_url "US") (email_only alice) (_headers alice);
     EvPost (auth_url "US") (email_only alice) (_headers alice)].
Proof.
  intros w. apply (login_missing_challenge w alice [("Message", JStr "try later")]).
  - split; [reflexivity|]. eexists. split; [reflexivity|]. split; reflexivity.
  - reflexivity.
  - reflexivity.
  - reflexivity.
Defined.

(** X9.  When step 1 has passed and step 2 answers 200 with a [challengeId]
    string, [login] prompts with the text naming the email, sends the verify
    request with the email, the password, that [challengeId] and the typed
    code, and then, whatever the verify request answers, raises [NameError]
    for [login] with the session untouched. *)
Theorem login_full_path w self fields challenge_id :
  step1_passes w self →
  status_code (step2_response w self) = 200 →
  body (step2_response w self) = Some (JObj fields) →
  assoc "challengeId" fields = Some (JStr challenge_id) →
  interactions (trace (login w self)) = login_script w self (JStr challenge_id) ∧
  outcome (login w self) = inl (NameError "login") ∧
  final (login w self) = self.
Proof.
  intros (S1%status_ok & f1 & B1 & A1 & M1) S2%status_ok B2 C2.
  unfold step1_response, step2_response, login_script, otp_prompt, verify_body,
    email_only in *.
  run_head. pass_step1 S1 B1 A1 M1. rewrite S2, B2. run_simpl. rewrite C2. by run_simpl.
Qed.

Lemma login_full_path_witness :
  let w := scripted active_2fa challenge token_granted "123456" unavailable in
  interactions (trace (login w alice)) =
    login_script w alice (JStr "e6ff5f3f-204c-4c76-8546-7a536761ebdd") ∧
  outcome (login w alice) = inl (NameError "login") ∧
  final (login w alice) = alice.
Proof.
  intros w.
  apply (login_full_path w alice
           [("challengeId", JStr "e6ff5f3f-204c-4c76-8546-7a536761ebdd")]).
  - split; [reflexivity|]. eexists. split; [reflexivity|]. split; reflexivity.
  - reflexivity.
  - reflexivity.
  - reflexivity.
Defined.

(** X10.  A 200 step-1 response that is a JSON object without
    [accountStatus], or with [accountStatus] ["ACTIVE"] and without
    [authenticationMethod], makes [login] raise [KeyError] for the missing
    key; the session is untouched (the flag is not reset) and the status
    request is all that was exchanged. *)
Theorem login_step1_missing_field w self fields key :
  status_code (step1_response w self) = 200 →
  body (step1_response w self) = Some (JObj fields) →
  (key = "accountStatus" ∧ assoc "accountStatus" fields = None) ∨
  (key = "authenticationMethod" ∧
   assoc "accountStatus" fields = Some (JStr "ACTIVE") ∧
   assoc "authenticationMethod" fields = None) →
  outcome (login w self) = inl (KeyError key) ∧
  final (login w self) = self ∧
  interactions (trace (login w self)) =
    [EvPost (userstatus_url (_country self)) (email_only self) (_headers self)].
Proof.
  intros S1%status_ok B1 Hmiss.
  unfold step1_response, email_only in *.
  run_head. rewrite S1, B1. run_simpl.
  destruct Hmiss as [[-> A1] | (-> & A1 & M1)]; rewrite A1; run_simpl; [done|].
  rewrite M1. by run_simpl.
Qed.

Lemma login_step1_missing_field_witness :
  let w := scripted (ok [("accountStatus", JStr "ACTIVE")]) challenge token_granted
             "123456" unavailable in
  outcome (login w alice_with_token) = inl (KeyError "authenticationMethod") ∧
  final (login w alice_with_token) = alice_with_token ∧
  interactions (trace (login w alice_with_token)) =
    [EvPost (userstatus_url "US") (email_only alice) (_headers alice_with_token)].
Proof.
  intros w.
  apply (login_step1_missing_field w alice_with_token [("accountStatus", JStr "ACTIVE")]).
  - reflexivity.
  - reflexivity.
  - right. split; [reflexivity|]. split; reflexivity.
Defined.

(** X11.  A 200 step-1 response whose [accountStatus] is not a string (a
    null, a number, ...) makes [login] raise [TypeError] while it builds the
    warning; the session is untouched and the status request is all that was
    exchanged. *)
Theorem login_non_string_status w self fields status :
  status_code (step1_response w self) = 200 →
  body (step1_response w self) = Some (JObj fields) →
  assoc "accountStatus" fields = Some status →
  is_str status = false →
  outcome (login w self) = inl TypeError ∧
  final (login w self) = self ∧
  interactions (trace (login w self)) =
    [EvPost (userstatus_url (_country self)) (email_only self) (_headers self)].
Proof.
  intros S1%status_ok B1 A1 Hstr.
  unfold step1_response, email_only in *.
  run_head. rewrite S1, B1. run_simpl. rewrite A1. run_simpl.
  destruct status; try discriminate Hstr; by run_simpl.
Qed.

Lemma login_non_string_status_witness :
  let w := scripted (ok [("accountStatus", JNull)]) challenge token_granted
             "123456" unavailable in
  outcome (login w alice) = inl TypeError ∧
  final (login w alice) = alice ∧
  interactions (trace (login w alice)) =
    [EvPost (userstatus_url "US") (email_only alice) (_headers alice)].
Proof.
  intros w.
  apply (login_non_string_status w alice [("accountStatus", JNull)] JNull);
    reflexivity.
Defined.

(** X12.  A 200 response whose body is not JSON, at step 1 or at step 2 once
    step 1 has passed, makes [login] raise the decoding error; the session is
    untouched and nothing is prompted. *)
Theorem login_body_not_json w self :
  (status_code (step1_response w self) = 200 ∧ body (step1_response w self) = None) ∨
  (step1_passes w self ∧
   status_code (step2_response w self) = 200 ∧ body (step2_response w self) = None) →
  outcome (login w self) = inl JSONDecodeError ∧
  final (login w self) = self ∧
  prompts (trace (login w self)) = [].
Proof.
  unfold step1_passes, step1_response, step2_response, email_only.
  intros [[S1%status_ok B1] | [(S1%status_ok & f1 & B1 & A1 & M1) [S2%status_ok B2]]].
  - run_head. rewrite S1, B1. by run_simpl.
  - run_head. pass_step1 S1 B1 A1 M1. rewrite S2, B2. by run_simpl.
Qed.

Lemma login_body_not_json_witness :
  let w := scripted (mkResponse 200 None) challenge token_granted "123456" unavailable in
  outcome (login w alice) = inl JSONDecodeError ∧
  final (login w alice) = alice ∧
  prompts (trace (login w alice)) = [].
Proof.
  intros w. apply (login_body_not_json w alice).
  left. split; reflexivity.
Defined.

(** X13.  When step 1 has passed and step 2 answers 200 with a [challengeId]
    that is not a string, [login] raises [TypeError] while it builds the debug
    record, before any prompt; the session is untouched. *)
Theorem login_non_string_challenge w self fields challenge_id :
  step1_passes w self →
  status_code (step2_response w self) = 200 →
  body (step2_response w self) = Some (JObj fields) →
  assoc "challengeId" fields = Some challenge_id →
  is_str challenge_id = false →
  outcome (login w self) = inl TypeError ∧
  final (login w self) = self ∧
  prompts (trace (login w self)) = [].
Proof.
  intros (S1%status_ok & f1 & B1 & A1 & M1) S2%status_ok B2 C2 Hstr.
  unfold step1_response, step2_response, email_only in *.
  run_head. pass_step1 S1 B1 A1 M1. rewrite S2, B2. run_simpl. rewrite C2. run_simpl.
  destruct challenge_id; try discriminate Hstr; by run_simpl.
Qed.

Lemma login_non_string_challenge_witness :
  let w := scripted active_2fa (ok [("challengeId", JNum 42)]) token_granted
             "123456" unavailable in
  outcome (login w alice) = inl TypeError ∧
  final (login w alice) = alice ∧
  prompts (trace (login w alice)) = [].
Proof.
  intros w.
  apply (login_non_string_challenge w alice [("challengeId", JNum 42)] (JNum 42)).
  - split; [reflexivity|]. eexists. split; [reflexivity|]. split; reflexivity.
  - reflexivity.
  - reflexivity.
  - reflexivity.
  - reflexivity.
Defined.

(** ** Further properties of [use_authentication_token] *)

(** X14.  Installing a string token returns without any request, prompt or
    log record, sets the flag, and makes the [Authorization] header
    ["Bearer "] followed by the token; every other header and the email,
    password and country are kept. *)
Theorem use_authentication_token_effect token w self :
  let r := use_authentication_token (JStr token) w self in
  outcome r = inr tt ∧
  trace r = [] ∧
  _logged (final r) = true ∧
  _headers (final r) !! "Authorization" = Some ("Bearer " +:+ token) ∧
  (∀ name, name ≠ "Authorization" → _headers (final r) !! name = _headers self !! name) ∧
  _email (final r) = _email self ∧
  _password (final r) = _password self ∧
  _country (final r) = _country self.
Proof.
  cbn zeta. rewrite use_authentication_token_installs. cbn.
  repeat split; try done.
  - by rewrite lookup_insert_eq.
  - intros name Hne. by rewrite lookup_insert_ne.
Qed.

(** X15.  A token that is not a string makes [use_authentication_token]
    raise [TypeError] before it touches the session: flag and headers are as
    before. *)
Theorem use_authentication_token_non_str token w self :
  is_str token = false →
  use_authentication_token token w self = mkResult (inl TypeError) self [].
Proof. intros Hstr. run_head. destruct token; try discriminate Hstr; done. Qed.

Lemma use_authentication_token_non_str_witness :
  use_authentication_token JNull (with_manifest []) alice =
    mkResult (inl TypeError) alice [].
Proof.
  apply (use_authentication_token_non_str JNull (with_manifest []) alice).
  reflexivity.
Defined.

(** X16.  Installing a second token overwrites the first: the session is the
    one that installing the second token alone would give. *)
Theorem use_authentication_token_overwrites token1 token2 w1 w2 self :
  final (use_authentication_token (JStr token2) w2
           (final (use_authentication_token (JStr token1) w1 self))) =
  final (use_authentication_token (JStr token2) w2 self).
Proof.
  rewrite !use_authentication_token_installs. cbn. by rewrite insert_insert_eq.
Qed.

(** ** Further properties of [devices] *)

(** X17.  With the flag true, [devices] exchanges exactly one thing with the
    outside, whatever the answer and whether it then returns or raises: a GET
    of [https://appapi.cp.dyson.com/v1/provisioningservice/manifest] with the
    session's headers. *)
Theorem devices_one_request p360 pheat w self :
  _logged self = true →
  interactions (trace (devices p360 pheat w self)) =
    [EvGet "https://appapi.cp.dyson.com/v1/provisioningservice/manifest" (_headers self)].
Proof. intros L. run_head. rewrite L. run_simpl. repeat run_case; done. Qed.

Lemma devices_one_request_witness :
  interactions (trace (devices (has_marker "eye") (has_marker "heat")
                         (with_manifest [fan]) alice_with_token)) =
    [EvGet "https://appapi.cp.dyson.com/v1/provisioningservice/manifest"
       (_headers alice_with_token)].
Proof.
  apply (devices_one_request (has_marker "eye") (has_marker "heat")
           (with_manifest [fan]) alice_with_token).
  reflexivity.
Defined.

(** X18.  [devices] never looks at the status of the manifest response: two
    answers with the same body, whatever their status codes, give the same
    result. *)
Theorem devices_ignores_status p360 pheat w w' self :
  body (manifest_response w self) = body (manifest_response w' self) →
  outcome (devices p360 pheat w self) = outcome (devices p360 pheat w' self).
Proof.
  unfold manifest_response. intros B. run_head.
  destruct (_logged self); run_simpl; [|done].
  rewrite B. repeat run_case; done.
Qed.

Lemma devices_ignores_status_witness :
  let w200 := with_manifest [vacuum] in
  let w401 := scripted unavailable unavailable unavailable ""
                (mkResponse 401 (Some (JArr [vacuum]))) in
  outcome (devices (has_marker "eye") (has_marker "heat") w200 alice_with_token) =
  outcome (devices (has_marker "eye") (has_marker "heat") w401 alice_with_token).
Proof.
  intros w200 w401.
  apply (devices_ignores_status (has_marker "eye") (has_marker "heat") w200 w401
           alice_with_token).
  reflexivity.
Defined.

(** X19.  With the flag true, a manifest response whose body is not JSON
    makes [devices] raise the decoding error, and one whose body is a JSON
    null, boolean or number makes it raise [TypeError]; the session is
    untouched. *)
Theorem devices_bad_body p360 pheat w self e :
  _logged self = true →
  (body (manifest_response w self) = None ∧ e = JSONDecodeError) ∨
  (e = TypeError ∧
   (body (manifest_response w self) = Some JNull ∨
    (∃ b, body (manifest_response w self) = Some (JBool b)) ∨
    (∃ n, body (manifest_response w self) = Some (JNum n)))) →
  outcome (devices p360 pheat w self) = inl e ∧
  final (devices p360 pheat w self) = self.
Proof.
  unfold manifest_response. intros L Hbody. run_head. rewrite L. run_simpl.
  destruct Hbody as [[B ->] | [-> [B | [[b B] | [n B]]]]]; rewrite B; by run_simpl.
Qed.

Lemma devices_bad_body_witness :
  let w := scripted unavailable unavailable unavailable "" (mkResponse 200 (Some JNull)) in
  outcome (devices (has_marker "eye") (has_marker "heat") w alice_with_token) =
    inl TypeError ∧
  final (devices (has_marker "eye") (has_marker "heat") w alice_with_token) =
    alice_with_token.
Proof.
  intros w.
  apply (devices_bad_body (has_marker "eye") (has_marker "heat") w alice_with_token).
  - reflexivity.
  - right. split; [reflexivity|]. left. reflexivity.
Defined.

(** X20.  When the manifest is a JSON array and [devices] returns, every
    handle holds the record it was built from: reading the records back off
    the handles gives the manifest, in order. *)
Theorem devices_records_round_trip p360 pheat w self records handles :
  body (manifest_response w self) = Some (JArr records) →
  outcome (devices p360 pheat w self) = inr handles →
  record_of <$> handles = records.
Proof.
  intros B Hout.
  destruct (_logged self) eqn:L.
  - rewrite (devices_listing _ _ _ _ _ L B) in Hout. cbn in Hout.
    injection Hout as <-. rewrite <- list_fmap_compose.
    rewrite <- (list_fmap_id records) at 2. apply list_fmap_ext.
    intros i record _. unfold handle. cbn.
    by destruct (p360 record), (pheat record).
  - revert Hout. run_head. rewrite L. by run_simpl.
Qed.

Lemma devices_records_round_trip_witness :
  record_of <$> [Dyson360Eye vacuum; DysonPureHotCoolLink heater; DysonPureCoolLink fan] =
    [vacuum; heater; fan].
Proof.
  apply (devices_records_round_trip (has_marker "eye") (has_marker "heat")
           (with_manifest [vacuum; heater; fan]) alice_with_token).
  - reflexivity.
  - vm_compute. reflexivity.
Defined.

(** ** How the operations compose *)

(** X21.  After a string token is installed, [devices] sends its manifest
    request with [Authorization: Bearer <token>] among the headers. *)
Theorem token_then_devices p360 pheat token w w' self :
  ∃ headers,
    interactions (trace (devices p360 pheat w
                           (final (use_authentication_token (JStr token) w' self)))) =
      [EvGet manifest_url headers] ∧
    headers !! "Authorization" = Some ("Bearer " +:+ token).
Proof.
  rewrite use_authentication_token_installs. cbn [final].
  eexists. split.
  - run_head. repeat run_case; done.
  - cbn. by rewrite lookup_insert_eq.
Qed.

(** X22.  A [login] whose status request is answered with a status other
    than 200 logs out a session that had a token installed: [devices] then
    raises [DysonNotLoggedException], although the [Authorization] header of
    the token is still in the headers. *)
Theorem failed_login_locks_devices p360 pheat token w0 w w' self :
  let session := final (use_authentication_token (JStr token) w0 self) in
  status_code (step1_response w session) ≠ 200 →
  outcome (devices p360 pheat w' (final (login w session))) = inl DysonNotLoggedException ∧
  _headers (final (login w session)) !! "Authorization" = Some ("Bearer " +:+ token).
Proof.
  intros session H1.
  destruct (login_step1_status w session H1) as (_ & -> & _).
  split.
  - by run_head.
  - subst session. rewrite use_authentication_token_installs. cbn.
    by rewrite lookup_insert_eq.
Qed.

Lemma failed_login_locks_devices_witness :
  let w := scripted unavailable unavailable unavailable "" unavailable in
  outcome (devices (has_marker "eye") (has_marker "heat") (with_manifest [fan])
             (final (login w alice_with_token))) = inl DysonNotLoggedException ∧
  _headers (final (login w alice_with_token)) !! "Authorization" = Some "Bearer t0k3n".
Proof.
  intros w.
  apply (failed_login_locks_devices (has_marker "eye") (has_marker "heat") "t0k3n"
           (with_manifest []) w (with_manifest [fan]) alice).
  vm_compute. discriminate.
Defined.

(** X23.  In every reachable session the two headers set at construction are
    still there with their values, and the only other header there can be is
    [Authorization]: no call removes or rewrites [Content-Type] or
    [User-Agent]. *)
Theorem reachable_default_headers self :
  reachable self →
  _headers self !! "Content-Type" = Some "application/json" ∧
  _headers self !! "User-Agent" =
    Some "Dalvik/2.1.0 (Linux; U; Android 12; sdk_gphone64_x86_64 Build/S2B2.211203.006)" ∧
  (∀ name, is_Some (_headers self !! name) →
     name = "Content-Type" ∨ name = "User-Agent" ∨ name = "Authorization").
Proof.
  induction 1 as [e p c | self token w _ IH | self w _ IH | self p360 pheat w _ IH].
  - cbn. split; [done|]. split; [done|]. intros name.
    rewrite !lookup_insert. repeat case_decide; subst; auto.
    rewrite lookup_empty. by intros [? ?].
  - destruct token; try (revert IH; by run_head).
    rewrite use_authentication_token_installs. cbn.
    destruct IH as (H1 & H2 & H3).
    rewrite !lookup_insert_ne by done. split; [done|]. split; [done|].
    intros name. rewrite lookup_insert. case_decide; subst; auto.
  - destruct (login_final w self) as [-> | ->]; done.
  - by rewrite devices_final.
Qed.

Lemma reachable_default_headers_witness :
  _headers alice_with_token !! "Content-Type" = Some "application/json" ∧
  _headers alice_with_token !! "User-Agent" =
    Some "Dalvik/2.1.0 (Linux; U; Android 12; sdk_gphone64_x86_64 Build/S2B2.211203.006)" ∧
  (∀ name, is_Some (_headers alice_with_token !! name) →
     name = "Content-Type" ∨ name = "User-Agent" ∨ name = "Authorization").
Proof.
  apply (reachable_default_headers alice_with_token).
  apply reach_use_authentication_token, reach_init.
Defined.

(** X24.  A session fresh from the constructor holds the email, password and
    country it was given, is not logged in, and has exactly two headers:
    [Content-Type: application/json] and the fixed [User-Agent]; every other
    header, [Authorization] among them, is absent.  [devices] on it raises
    [DysonNotLoggedException]. *)
Theorem fresh_session_not_logged p360 pheat email password country w :
  let self := __init__ email password country in
  _email self = email ∧ _password self = password ∧ _country self = country ∧
  logged self = false ∧
  _headers self !! "Content-Type" = Some "application/json" ∧
  _headers self !! "User-Agent" =
    Some "Dalvik/2.1.0 (Linux; U; Android 12; sdk_gphone64_x86_64 Build/S2B2.211203.006)" ∧
  (∀ name, name ≠ "Content-Type" → name ≠ "User-Agent" → _headers self !! name = None) ∧
  outcome (devices p360 pheat w self) = inl DysonNotLoggedException.
Proof.
  cbn zeta. repeat split; try by vm_compute.
  intros name H1 H2. cbn. by rewrite !lookup_insert_ne, lookup_empty.
Qed.
